(** * Youtube Assistant: configuration resolution and agent dispatch

    A shallow embedding of [config.py] (class [Config]) and of the
    dispatch path of [app.py] ([load_agent_instructions], [run_agent] and
    the chat-input handler), together with the properties the
    specification states about them.

    Python strings are modelled as byte strings (UTF-8), dictionaries as
    finite maps, process-wide state ([os.environ], standard output, the
    files the program looks at, the calls made to the agent runtime) as
    one explicit [World] threaded through a state-and-exception monad. *)

From Stdlib Require Import ZArith String Ascii.
From stdpp Require Import base option strings list gmap.

Local Open Scope string_scope.
Local Open Scope Z_scope.
Set Warnings "-register-all".

(** ** Python values and string helpers *)

Module Py.

(** The values a configuration dictionary can hold ([Dict[str, Any]]):
    what [json.load] produces, except for numbers with a fraction or an
    exponent, which the model leaves out. *)
Inductive pyval : Type :=
| PNone
| PBool (b : bool)
| PInt (z : Z)
| PStr (s : string)
| PList (l : list pyval)
| PDict (kvs : list (string * pyval)).

Definition nl : string := String (ascii_of_nat 10) EmptyString.

(** The ASCII characters [str.isspace] accepts: tab, line feed, vertical
    tab, form feed, carriage return, the four separators 28..31 and the
    space. *)
Definition is_space (c : ascii) : bool :=
  let n := nat_of_ascii c in
  ((9 <=? n) && (n <=? 13) || (28 <=? n) && (n <=? 32))%nat.

Fixpoint lstrip (s : string) : string :=
  match s with
  | String c s' => if is_space c then lstrip s' else s
  | EmptyString => EmptyString
  end.

(** [rstrip]: a character is dropped when only white space follows it. *)
Fixpoint rstrip (s : string) : string :=
  match s with
  | EmptyString => EmptyString
  | String c s' =>
      match rstrip s' with
      | EmptyString => if is_space c then EmptyString else String c EmptyString
      | r => String c r
      end
  end.

(** [s.strip()] on the ASCII white space. *)
Definition strip (s : string) : string := rstrip (lstrip s).

Definition lower_ascii (c : ascii) : ascii :=
  let n := nat_of_ascii c in
  if ((65 <=? n) && (n <=? 90))%nat then ascii_of_nat (n + 32) else c.

(** [s.lower()]; bytes outside [A-Z] are left alone. *)
Fixpoint lower (s : string) : string :=
  match s with
  | EmptyString => EmptyString
  | String c s' => String (lower_ascii c) (lower s')
  end.

(** [sep.join(l)]. *)
Fixpoint join (sep : string) (l : list string) : string :=
  match l with
  | [] => ""
  | [x] => x
  | x :: rest => x ++ sep ++ join sep rest
  end.

Definition digit_of (c : ascii) : option Z :=
  let n := nat_of_ascii c in
  if ((48 <=? n) && (n <=? 57))%nat then Some (Z.of_nat (n - 48)) else None.

Definition is_underscore (c : ascii) : bool := (nat_of_ascii c =? 95)%nat.

(** Digits of a base-10 literal, read left to right. [after_digit] says
    whether the previous character was a digit: an underscore is accepted
    only between two digits, and the literal must end on a digit. *)
Fixpoint int_digits (acc : Z) (after_digit : bool) (s : string) : option Z :=
  match s with
  | EmptyString => if after_digit then Some acc else None
  | String c s' =>
      match digit_of c with
      | Some d => int_digits (10 * acc + d) true s'
      | None =>
          if is_underscore c && after_digit then
            match s' with
            | String c' _ =>
                match digit_of c' with
                | Some _ => int_digits acc false s'
                | None => None
                end
            | EmptyString => None
            end
          else None
      end
  end.

(** The white space [int] skips around an ASCII literal: tab, line feed,
    vertical tab, form feed, carriage return and space. The separators
    28..31, which [str.strip] removes, are not among them. *)
Definition is_c_space (c : ascii) : bool :=
  let n := nat_of_ascii c in
  ((9 <=? n) && (n <=? 13) || (n =? 32))%nat.

Fixpoint skip_c_space (s : string) : string :=
  match s with
  | String c s' => if is_c_space c then skip_c_space s' else s
  | EmptyString => EmptyString
  end.

Fixpoint drop_trailing_c_space (s : string) : string :=
  match s with
  | EmptyString => EmptyString
  | String c s' =>
      match drop_trailing_c_space s' with
      | EmptyString => if is_c_space c then EmptyString else String c EmptyString
      | r => String c r
      end
  end.

(** The number of decimal digits of a literal, its underscores left out. *)
Fixpoint count_digits (s : string) : nat :=
  match s with
  | EmptyString => 0
  | String c s' =>
      match digit_of c with
      | Some _ => S (count_digits s')
      | None => count_digits s'
      end
  end.

(** The limit on the length of a literal: a literal of more than 640
    digits is refused when the limit is not 0 and the literal has more
    digits than the limit. *)
Definition too_many_digits (max_str_digits : nat) (s : string) : bool :=
  let digits := count_digits s in
  ((640 <? digits) && (0 <? max_str_digits) && (max_str_digits <? digits))%nat.

(** [int(s)] for a string of ASCII characters, under the limit
    [sys.get_int_max_str_digits()]: white space around the literal is
    skipped, one sign is accepted, then come base-10 digits, with single
    underscores between digits. [None] stands for the [ValueError] that
    [int] raises. *)
Definition int_of_ascii (max_str_digits : nat) (s : string) : option Z :=
  let literal := drop_trailing_c_space (skip_c_space s) in
  let '(negative, body) :=
    match literal with
    | String "+" r => (false, r)
    | String "-" r => (true, r)
    | r => (false, r)
    end in
  match int_digits 0 false body with
  | Some z =>
      if too_many_digits max_str_digits body then None
      else Some (if negative then - z else z)
  | None => None
  end.

(** Whether every character of the text is an ASCII character. *)
Fixpoint is_ascii_text (s : string) : bool :=
  match s with
  | EmptyString => true
  | String c s' => (nat_of_ascii c <? 128)%nat && is_ascii_text s'
  end.

(** Whether the text holds the character U+0000. *)
Fixpoint has_nul (s : string) : bool :=
  match s with
  | EmptyString => false
  | String c s' => (nat_of_ascii c =? 0)%nat || has_nul s'
  end.

(** Whether the text holds the character [c]. *)
Fixpoint has_char (c : ascii) (s : string) : bool :=
  match s with
  | EmptyString => false
  | String c' s' => Ascii.eqb c c' || has_char c s'
  end.

(** [bool(v)], as [not v] tests it. *)
Definition truthy (v : pyval) : bool :=
  match v with
  | PNone => false
  | PBool b => b
  | PInt z => negb (z =? 0)
  | PStr s => negb (String.eqb s "")
  | PList l => match l with [] => false | _ => true end
  | PDict kvs => match kvs with [] => false | _ => true end
  end.

End Py.

Import Py.

(** ** The process state and the monad of effects *)

Module Runtime.

(** What [print] writes while the configuration is resolved. The text of
    a line is not modelled, only which line it is. *)
Inductive LogLine : Type :=
| LoadingFromEnvironment
| LoadingFromExternalConfig
| ErrorLoadingConfig
| LoadingFromDotenv
| NoConfigurationFound.

(** What [json.load] followed by [dict.update] sees in the external
    configuration file: a file that cannot be read or parsed, or a JSON
    object, given by its members in document order. A well-formed document
    whose top level is not an object is outside the model. *)
Inductive JsonFile : Type :=
| Malformed
| JsonObject (members : list (string * pyval)).

(** A text file opened for reading: absent ([FileNotFoundError]), present
    but unreadable (any other error of [open] or [read], with its message)
    or readable with its contents. *)
Inductive TextFile : Type :=
| Absent
| Unreadable (msg : string)
| Readable (contents : string).

Inductive Tool : Type :=
| WebSearchTool
| FileSearchTool (max_num_results : Z) (vector_store_ids : list string).

Record Agent : Type := mkAgent {
  name : pyval;
  instructions : string;
  tools : list Tool;
  model : pyval
}.

(** What [load_dotenv()] finds when it looks for a [.env] file, from the
    directory of [config.py] upwards: no file, a file that cannot be read
    or decoded (with the message of the error), or the assignments of the
    file, each variable once, with the value the file gives it. *)
Inductive DotenvFile : Type :=
| NoDotenv
| UnreadableDotenv (msg : string)
| Dotenv (assignments : list (string * string)).

(** - [environ]: [os.environ];
    - [stdout]: the lines printed so far, oldest first;
    - [int_max_str_digits]: [sys.get_int_max_str_digits()], 4300 unless
      the interpreter was started or set otherwise;
    - [int_non_ascii]: what [int] answers on a text that holds a
      non-ASCII character; it follows the Unicode tables of the
      interpreter, which are not modelled;
    - [passwd_home]: the home directory of the user in the password
      database, when there is an entry;
    - [config_json]: for a home directory, the file
      [.config/youtube-assistant/config.json] under it, when it exists;
    - [dotenv_in_cwd]: whether [.env] exists in the working directory;
    - [dotenv_found]: what [load_dotenv()] finds;
    - [instructions_file]: [agent_instructions.txt];
    - [agent_runs]: the calls made to [Runner.run], oldest first. *)
Record World : Type := mkWorld {
  environ : gmap string string;
  stdout : list LogLine;
  int_max_str_digits : nat;
  int_non_ascii : string → option Z;
  passwd_home : option string;
  config_json : string → option JsonFile;
  dotenv_in_cwd : bool;
  dotenv_found : DotenvFile;
  instructions_file : TextFile;
  agent_runs : list (Agent * string)
}.

Definition set_environ (f : gmap string string → gmap string string) (w : World) : World :=
  mkWorld (f (environ w)) (stdout w) (int_max_str_digits w) (int_non_ascii w)
          (passwd_home w) (config_json w) (dotenv_in_cwd w) (dotenv_found w)
          (instructions_file w) (agent_runs w).

Definition set_stdout (f : list LogLine → list LogLine) (w : World) : World :=
  mkWorld (environ w) (f (stdout w)) (int_max_str_digits w) (int_non_ascii w)
          (passwd_home w) (config_json w) (dotenv_in_cwd w) (dotenv_found w)
          (instructions_file w) (agent_runs w).

Definition set_agent_runs (f : list (Agent * string) → list (Agent * string)) (w : World) : World :=
  mkWorld (environ w) (stdout w) (int_max_str_digits w) (int_non_ascii w)
          (passwd_home w) (config_json w) (dotenv_in_cwd w) (dotenv_found w)
          (instructions_file w) (f (agent_runs w)).

(** [os.environ[key] = value], when the assignment is accepted. *)
Definition os_environ_set (key value : string) (w : World) : World :=
  set_environ (λ env, <[key := value]> env) w.

(** The same process with other files on disk. *)
Definition with_files (files : string → option JsonFile) (in_cwd : bool)
    (found : DotenvFile) (w : World) : World :=
  mkWorld (environ w) (stdout w) (int_max_str_digits w) (int_non_ascii w)
          (passwd_home w) files in_cwd found (instructions_file w) (agent_runs w).

(** [int(s)] in this process. *)
Definition py_int (w : World) (s : string) : option Z :=
  if is_ascii_text s then int_of_ascii (int_max_str_digits w) s
  else int_non_ascii w s.

(** Why [os.environ[key] = value] is refused, if it is: a name or a value
    that holds U+0000, an empty name, a name that holds the equals sign. *)
Definition putenv_error (key value : string) : option string :=
  if has_nul key || has_nul value then Some "embedded null byte"
  else if String.eqb key "" || has_char "=" key
       then Some "illegal environment variable name"
       else None.

(** A computation either returns a value or raises; either way it leaves
    a world behind. *)
Inductive result (E A : Type) : Type :=
| Ok (a : A)
| Raise (e : E).
Arguments Ok {E A} a.
Arguments Raise {E A} e.

Definition M (E A : Type) : Type := World → result E A * World.

Definition ret {E A} (a : A) : M E A := λ w, (Ok a, w).

Definition raise {E A} (e : E) : M E A := λ w, (Raise e, w).

Definition bind {E A B} (m : M E A) (k : A → M E B) : M E B :=
  λ w, match m w with
       | (Ok a, w') => k a w'
       | (Raise e, w') => (Raise e, w')
       end.

(** [try: m  except <E> as e: h e]. *)
Definition try_except {E E' A} (m : M E A) (h : E → M E' A) : M E' A :=
  λ w, match m w with
       | (Ok a, w') => (Ok a, w')
       | (Raise e, w') => h e w'
       end.

Definition get {E} : M E World := λ w, (Ok w, w).

Definition modify {E} (f : World → World) : M E unit := λ w, (Ok tt, f w).

Definition print {E} (l : LogLine) : M E unit :=
  modify (set_stdout (λ out, (out ++ [l])%list)).

(** [os.environ[key] = value]: a refused assignment raises the
    [ValueError] that [value_error] builds and writes nothing. *)
Definition os_environ_setitem {E} (value_error : string → E) (key value : string) :
    M E unit :=
  match putenv_error key value with
  | Some msg => raise (value_error msg)
  | None => modify (os_environ_set key value)
  end.

End Runtime.

Import Runtime.

Notation "'do' x <- m ; k" := (bind m (λ x, k))
  (at level 10, x name, m at level 100, k at level 200, only parsing).
Notation "'exec' m ; k" := (bind m (λ _, k))
  (at level 10, m at level 100, k at level 200, only parsing).

(** ** config.py *)

Module Config.

(** The exceptions that leave [_load_configuration]: the [ValueError] of
    [int] on a string it does not accept, the error of [Path.home()] when
    no home directory can be determined, the error of [load_dotenv()] on a
    file it cannot read, and the [ValueError] of [os.environ] on an
    assignment it refuses. *)
Inductive ConfigError : Type :=
| InvalidIntLiteral (literal : string)
| HomeDirectoryError
| DotenvReadError (msg : string)
| EnvironValueError (msg : string).

(** [os.getenv(key, default)], also [os.environ.get(key, default)]. *)
Definition getenv (env : gmap string string) (key dflt : string) : string :=
  default dflt (env !! key).

(** The loop of [load_dotenv()] over the assignments of the file: a
    variable the process already has is left alone, the others are
    assigned in turn. *)
Fixpoint set_as_environment_variables (assignments : list (string * string)) :
    M ConfigError unit :=
  match assignments with
  | [] => ret tt
  | (key, value) :: rest =>
      do w <- get;
      match environ w !! key with
      | Some _ => set_as_environment_variables rest
      | None =>
          exec os_environ_setitem EnvironValueError key value;
          set_as_environment_variables rest
      end
  end.

(** [load_dotenv()]: it looks for a [.env] file from the directory of
    [config.py] upwards, which need not be the working directory; without
    a file it does nothing. *)
Definition load_dotenv : M ConfigError unit :=
  do w <- get;
  match dotenv_found w with
  | NoDotenv => ret tt
  | UnreadableDotenv msg => raise (DotenvReadError msg)
  | Dotenv assignments => set_as_environment_variables assignments
  end.

(** [Path.home()]: the variable [HOME] when it is set, the password
    database otherwise. *)
Definition home_directory (w : World) : option string :=
  match environ w !! "HOME" with
  | Some home => Some home
  | None => passwd_home w
  end.

Definition Path_home : M ConfigError string :=
  do w <- get;
  match home_directory w with
  | Some home => ret home
  | None => raise HomeDirectoryError
  end.

(** The file [Path.home() / ".config" / "youtube-assistant" /
    "config.json"], when the home directory is known and the file
    exists. *)
Definition external_config (w : World) : option JsonFile :=
  match home_directory w with
  | Some home => config_json w home
  | None => None
  end.


(** [bool(os.environ.get(key))]: the variable is set and not empty. *)
Definition env_truthy (v : option string) : bool :=
  match v with
  | Some s => negb (String.eqb s "")
  | None => false
  end.

Definition _has_required_env_vars (env : gmap string string) : bool :=
  env_truthy (env !! "OPENAI_API_KEY") && env_truthy (env !! "VECTOR_STORE_ID").

(** [int(os.getenv(key, default))]. *)
Definition getenv_int (env : gmap string string) (key dflt : string) : M ConfigError Z :=
  do w <- get;
  match py_int w (getenv env key dflt) with
  | Some z => ret z
  | None => raise (InvalidIntLiteral (getenv env key dflt))
  end.

(** [os.getenv(key, default).lower() == "true"]. *)
Definition getenv_bool (env : gmap string string) (key dflt : string) : bool :=
  String.eqb (lower (getenv env key dflt)) "true".

Definition default_instructions : string :=
  "You are a research assistant who uses web search and document search to respond to questions.".

Definition _load_from_env : M ConfigError (gmap string pyval) :=
  do w <- get;
  let env := environ w in
  do max_results <- getenv_int env "MAX_RESULTS_DEFAULT" "3";
  ret (<["OPENAI_API_KEY" := PStr (getenv env "OPENAI_API_KEY" "")]>
      (<["VECTOR_STORE_ID" := PStr (getenv env "VECTOR_STORE_ID" "")]>
      (<["MCP_URL" := PStr (getenv env "MCP_URL" "")]>
      (<["APP_TITLE" := PStr (getenv env "APP_TITLE" "Youtube Assistant")]>
      (<["APP_ICON" := PStr (getenv env "APP_ICON" "🎥")]>
      (<["MAX_RESULTS_DEFAULT" := PInt max_results]>
      (<["ENABLE_WEB_SEARCH_DEFAULT" :=
           PBool (getenv_bool env "ENABLE_WEB_SEARCH_DEFAULT" "true")]>
      (<["ENABLE_DOCUMENT_SEARCH_DEFAULT" :=
           PBool (getenv_bool env "ENABLE_DOCUMENT_SEARCH_DEFAULT" "false")]>
      (<["ENABLE_MCP_SEARCH_DEFAULT" :=
           PBool (getenv_bool env "ENABLE_MCP_SEARCH_DEFAULT" "false")]>
      (<["AGENT_NAME" := PStr (getenv env "AGENT_NAME" "Youtube Assistant")]>
      (<["AGENT_INSTRUCTIONS" :=
           PStr (getenv env "AGENT_INSTRUCTIONS" default_instructions)]>
      (<["AGENT_MODEL" := PStr (getenv env "AGENT_MODEL" "gpt-4o-mini")]>
       ∅)))))))))))).

Definition _get_defaults : gmap string pyval :=
  <["OPENAI_API_KEY" := PStr ""]>
  (<["VECTOR_STORE_ID" := PStr ""]>
  (<["MCP_URL" := PStr ""]>
  (<["APP_TITLE" := PStr "Youtube Assistant"]>
  (<["APP_ICON" := PStr "🎥"]>
  (<["MAX_RESULTS_DEFAULT" := PInt 3]>
  (<["ENABLE_WEB_SEARCH_DEFAULT" := PBool true]>
  (<["ENABLE_DOCUMENT_SEARCH_DEFAULT" := PBool false]>
  (<["ENABLE_MCP_SEARCH_DEFAULT" := PBool false]>
  (<["AGENT_NAME" := PStr "Youtube Assistant"]>
  (<["AGENT_INSTRUCTIONS" := PStr default_instructions]>
  (<["AGENT_MODEL" := PStr "gpt-4o-mini"]>
   ∅))))))))))).

(** [d.update(config)] for the members of a JSON object, in document
    order: a later member with the same name wins. *)
Definition dict_update (d : gmap string pyval) (members : list (string * pyval)) :
    gmap string pyval :=
  foldl (λ acc kv, <[kv.1 := kv.2]> acc) d members.

(** [open] and [json.load] on the external file: the parsed object, or
    the exception, of which the caller only prints the text. *)
Definition json_load (f : JsonFile) : M unit (list (string * pyval)) :=
  match f with
  | JsonObject members => ret members
  | Malformed => raise tt
  end.

Definition _load_from_json (config_path : JsonFile) : M ConfigError (gmap string pyval) :=
  try_except
    (do config <- json_load config_path;
     let defaults := _get_defaults in
     ret (dict_update defaults config))
    (λ _, exec print ErrorLoadingConfig; ret _get_defaults).

Definition _load_configuration : M ConfigError (gmap string pyval) :=
  do w <- get;
  if _has_required_env_vars (environ w) then
    exec print LoadingFromEnvironment;
    _load_from_env
  else
    do home <- Path_home;
    match config_json w home with
    | Some external_config =>
        exec print LoadingFromExternalConfig;
        _load_from_json external_config
    | None =>
        if dotenv_in_cwd w then
          exec print LoadingFromDotenv;
          exec load_dotenv;
          _load_from_env
        else
          exec print NoConfigurationFound;
          ret _get_defaults
    end.

(** The properties of [Config], reading [_config_data]. *)
Definition OPENAI_API_KEY (c : gmap string pyval) : pyval :=
  default (PStr "") (c !! "OPENAI_API_KEY").
Definition VECTOR_STORE_ID (c : gmap string pyval) : pyval :=
  default (PStr "") (c !! "VECTOR_STORE_ID").
Definition MCP_URL (c : gmap string pyval) : pyval :=
  default (PStr "") (c !! "MCP_URL").
Definition APP_TITLE (c : gmap string pyval) : pyval :=
  default (PStr "Youtube Assistant") (c !! "APP_TITLE").
Definition APP_ICON (c : gmap string pyval) : pyval :=
  default (PStr "🎥") (c !! "APP_ICON").
Definition MAX_RESULTS_DEFAULT (c : gmap string pyval) : pyval :=
  default (PInt 3) (c !! "MAX_RESULTS_DEFAULT").
Definition ENABLE_WEB_SEARCH_DEFAULT (c : gmap string pyval) : pyval :=
  default (PBool true) (c !! "ENABLE_WEB_SEARCH_DEFAULT").
Definition ENABLE_DOCUMENT_SEARCH_DEFAULT (c : gmap string pyval) : pyval :=
  default (PBool true) (c !! "ENABLE_DOCUMENT_SEARCH_DEFAULT").
Definition ENABLE_MCP_SEARCH_DEFAULT (c : gmap string pyval) : pyval :=
  default (PBool false) (c !! "ENABLE_MCP_SEARCH_DEFAULT").
Definition AGENT_NAME (c : gmap string pyval) : pyval :=
  default (PStr "Youtube Assistant") (c !! "AGENT_NAME").
Definition AGENT_INSTRUCTIONS (c : gmap string pyval) : pyval :=
  default (PStr default_instructions) (c !! "AGENT_INSTRUCTIONS").
Definition AGENT_MODEL (c : gmap string pyval) : pyval :=
  default (PStr "gpt-4o-mini") (c !! "AGENT_MODEL").

(** As the specification words it: a Settings value built entirely from
    the environment [env], each key taking the value of its variable, or
    its own default when the variable is unset; the maximum is the
    base-10 reading [n] of its variable and a flag is on when its variable
    is "true" in any letter case. *)
Definition from_environment (key dflt : string) (env : gmap string string) : string :=
  match env !! key with
  | Some v => v
  | None => dflt
  end.

Definition environment_sourced (env : gmap string string) (n : Z)
    (c : gmap string pyval) : Prop :=
  c !! "OPENAI_API_KEY" = Some (PStr (from_environment "OPENAI_API_KEY" "" env)) ∧
  c !! "VECTOR_STORE_ID" = Some (PStr (from_environment "VECTOR_STORE_ID" "" env)) ∧
  c !! "MCP_URL" = Some (PStr (from_environment "MCP_URL" "" env)) ∧
  c !! "APP_TITLE" =
    Some (PStr (from_environment "APP_TITLE" "Youtube Assistant" env)) ∧
  c !! "APP_ICON" = Some (PStr (from_environment "APP_ICON" "🎥" env)) ∧
  c !! "MAX_RESULTS_DEFAULT" = Some (PInt n) ∧
  c !! "ENABLE_WEB_SEARCH_DEFAULT" =
    Some (PBool (String.eqb
                   (lower (from_environment "ENABLE_WEB_SEARCH_DEFAULT" "true" env))
                   "true")) ∧
  c !! "ENABLE_DOCUMENT_SEARCH_DEFAULT" =
    Some (PBool (String.eqb
                   (lower (from_environment "ENABLE_DOCUMENT_SEARCH_DEFAULT" "false" env))
                   "true")) ∧
  c !! "ENABLE_MCP_SEARCH_DEFAULT" =
    Some (PBool (String.eqb
                   (lower (from_environment "ENABLE_MCP_SEARCH_DEFAULT" "false" env))
                   "true")) ∧
  c !! "AGENT_NAME" =
    Some (PStr (from_environment "AGENT_NAME" "Youtube Assistant" env)) ∧
  c !! "AGENT_INSTRUCTIONS" =
    Some (PStr (from_environment "AGENT_INSTRUCTIONS"
                  "You are a research assistant who uses web search and document search to respond to questions."
                  env)) ∧
  c !! "AGENT_MODEL" = Some (PStr (from_environment "AGENT_MODEL" "gpt-4o-mini" env)) ∧
  ∀ key, is_Some (c !! key) →
         key ∈ ["OPENAI_API_KEY"; "VECTOR_STORE_ID"; "MCP_URL"; "APP_TITLE"; "APP_ICON";
                "MAX_RESULTS_DEFAULT"; "ENABLE_WEB_SEARCH_DEFAULT";
                "ENABLE_DOCUMENT_SEARCH_DEFAULT"; "ENABLE_MCP_SEARCH_DEFAULT";
                "AGENT_NAME"; "AGENT_INSTRUCTIONS"; "AGENT_MODEL"].

(** [Config()]: the constructor resolves the configuration. *)
Definition new_Config : M ConfigError (gmap string pyval) := _load_configuration.

Definition validate_required_keys : M ConfigError (bool * list string) :=
  do config_instance <- new_Config;
  let missing_keys : list string := [] in
  let missing_keys :=
    if negb (truthy (OPENAI_API_KEY config_instance))
    then (missing_keys ++ ["OPENAI_API_KEY"])%list
    else missing_keys in
  ret (Nat.eqb (length missing_keys) 0, missing_keys).

(** The dictionary [get_env_status] returns. *)
Record EnvStatus : Type := mkEnvStatus {
  is_valid : bool;
  missing_keys : list string;
  openai_key_set : bool;
  vector_store_set : bool;
  mcp_url_set : bool
}.

Definition get_env_status : M ConfigError EnvStatus :=
  do config_instance <- new_Config;
  do validation <- validate_required_keys;
  let '(is_valid, missing_keys) := validation in
  ret (mkEnvStatus is_valid missing_keys
         (truthy (OPENAI_API_KEY config_instance))
         (truthy (VECTOR_STORE_ID config_instance))
         (truthy (MCP_URL config_instance))).

End Config.

(** ** app.py *)

Module App.

Import Config.

Inductive AppError : Type :=
| ValueError (msg : string)
| OSError (msg : string)
| AgentError (msg : string).

(** [str(e)]. *)
Definition error_text (e : AppError) : string :=
  match e with
  | ValueError msg | OSError msg | AgentError msg => msg
  end.

Inductive FileError : Type :=
| FileNotFoundError
| OtherFileError (msg : string).

(** [with open(path) as f: f.read()]. *)
Definition read_text (f : TextFile) : M FileError string :=
  match f with
  | Readable contents => ret contents
  | Absent => raise FileNotFoundError
  | Unreadable msg => raise (OtherFileError msg)
  end.

Definition fallback_instructions : string :=
  "You are a research assistant who helps users find information using available search tools. Always cite your sources.".

Definition load_agent_instructions : M AppError string :=
  do w <- get;
  try_except
    (do text <- read_text (instructions_file w);
     ret (strip text))
    (λ e, match e with
          | FileNotFoundError => ret fallback_instructions
          | OtherFileError msg => raise (OSError msg)
          end).

Record SearchMetadata : Type := mkMetadata {
  sources_enabled : list string;
  web_search : bool;
  document_search : bool;
  max_doc_results : option Z
}.

Record DispatchResult : Type := mkResult {
  response : string;
  metadata : SearchMetadata
}.

Definition document_only_directive : string :=
  nl ++ nl ++ "CURRENT SESSION MODE: DOCUMENT-ONLY SEARCH. You can ONLY use information from the uploaded documents via vector search. Do NOT use any general knowledge, training data, or external information. If the answer is not in the documents, clearly state 'I don't have information about [topic] in the uploaded documents.'".

Definition web_only_directive : string :=
  nl ++ nl ++ "CURRENT SESSION MODE: WEB-ONLY SEARCH. You can only use information from web search results.".

Definition hybrid_directive : string :=
  nl ++ nl ++ "CURRENT SESSION MODE: HYBRID SEARCH. You have access to both document search and web search. Use both sources appropriately.".

Definition no_source_message : string :=
  "At least one search source must be enabled".

Definition missing_vector_store_message : string :=
  "Document search enabled but Vector Store ID is missing".

Section Dispatch.

(** The global [config] object: its [_config_data]. *)
Variable config : gmap string pyval.

(** The agent runtime behind [Runner.run]: what one run answers, or the
    exception it raises, for an agent and a query in a given process
    state, and the state in which it leaves the process. Nothing is
    assumed about it. *)
Variable runtime : Agent → string → World → result AppError string * World.

(** [(await Runner.run(agent, query)).final_output]. The call is recorded
    in [agent_runs], whatever the runtime does to the process. *)
Definition Runner_run (agent : Agent) (query : string) : M AppError string :=
  λ w, let '(outcome, w') := runtime agent query w in
       (outcome,
        set_agent_runs (λ _, (agent_runs w ++ [(agent, query)])%list) w').

Definition run_agent (query api_key vs_id : string) (enable_web enable_docs : bool)
    (max_doc_results : Z) : M AppError DispatchResult :=
  exec os_environ_setitem ValueError "OPENAI_API_KEY" api_key;
  let tools : list Tool := [] in
  let sources_used : list string := [] in
  let '(tools, sources_used) :=
    if enable_web
    then ((tools ++ [WebSearchTool])%list, (sources_used ++ ["web search"])%list)
    else (tools, sources_used) in
  do built <-
    (if enable_docs then
       if String.eqb vs_id "" then raise (ValueError missing_vector_store_message)
       else ret ((tools ++ [FileSearchTool max_doc_results [vs_id]])%list,
                 (sources_used ++ ["vector data store search"])%list)
     else ret (tools, sources_used));
  let '(tools, sources_used) := built in
  exec (match tools with
        | [] => raise (ValueError no_source_message)
        | _ => ret tt
        end);
  do instructions <- load_agent_instructions;
  let instructions :=
    if enable_docs && negb enable_web then instructions ++ document_only_directive
    else if enable_web && negb enable_docs then instructions ++ web_only_directive
    else if enable_web && enable_docs then instructions ++ hybrid_directive
    else instructions in
  let sources_text := join " and " sources_used in
  let instructions :=
    instructions ++ nl ++ nl ++ "CURRENT ACTIVE SOURCES: " ++ sources_text in
  let agent := mkAgent (AGENT_NAME config) instructions tools (AGENT_MODEL config) in
  do final_output <- Runner_run agent query;
  ret (mkResult final_output
         (mkMetadata sources_used enable_web enable_docs
            (if enable_docs then Some max_doc_results else None))).

(** *** The chat-input handler *)

Inductive Role : Type := user | assistant.

Record ConversationEntry : Type := mkEntry {
  role : Role;
  content : string;
  entry_metadata : option SearchMetadata
}.

(** What [st.error] can show. *)
Inductive Alert : Type :=
| AddApiKey
| AddVectorStoreId
| EnableOneSource.

(** [st.session_state.messages] and the alerts shown by this run of the
    script. *)
Record Session : Type := mkSession {
  messages : list ConversationEntry;
  alerts : list Alert
}.

Definition st_error (a : Alert) (s : Session) : Session :=
  mkSession (messages s) (alerts s ++ [a])%list.

Definition append_message (m : ConversationEntry) (s : Session) : Session :=
  mkSession (messages s ++ [m])%list (alerts s).

(** The body of [if prompt := st.chat_input(...)]. [api_key] and [vs_id]
    are [config.OPENAI_API_KEY] and [config.VECTOR_STORE_ID], strings by
    the annotations of these properties; [use_web_search],
    [use_document_search] and [max_results] are the sidebar widgets. *)
Definition chat_input (prompt api_key vs_id : string)
    (use_web_search use_document_search : bool) (max_results : Z)
    (s : Session) (w : World) : Session * World :=
  if String.eqb prompt "" then (s, w)
  else if String.eqb api_key "" then (st_error AddApiKey s, w)
  else if String.eqb vs_id "" && use_document_search then (st_error AddVectorStoreId s, w)
  else if negb use_web_search && negb use_document_search then (st_error EnableOneSource s, w)
  else
    let s := append_message (mkEntry user prompt None) s in
    match run_agent prompt api_key vs_id use_web_search use_document_search max_results w with
    | (Ok result, w') =>
        (append_message (mkEntry assistant (response result) (Some (metadata result))) s, w')
    | (Raise e, w') =>
        let error_msg := "Error: " ++ error_text e in
        (append_message (mkEntry assistant error_msg None) s, w')
    end.

(** As the specification words it: the two preconditions tested first
    and in the stated order, then the tools, the instruction text by a
    three-way case on the mode, one run of the agent, and the metadata. *)
Inductive SearchMode : Type := DocumentOnly | WebOnly | Hybrid.

Definition mode_of (web_enabled document_enabled : bool) : option SearchMode :=
  match web_enabled, document_enabled with
  | false, true => Some DocumentOnly
  | true, false => Some WebOnly
  | true, true => Some Hybrid
  | false, false => None
  end.

Definition directive (mode : SearchMode) : string :=
  match mode with
  | DocumentOnly => document_only_directive
  | WebOnly => web_only_directive
  | Hybrid => hybrid_directive
  end.

Definition source_labels (web_enabled document_enabled : bool) : list string :=
  ((if web_enabled then ["web search"] else []) ++
   (if document_enabled then ["vector data store search"] else []))%list.

Definition footer (labels : list string) : string :=
  nl ++ nl ++ "CURRENT ACTIVE SOURCES: " ++ join " and " labels.

Definition dispatch_in_stated_order (query api_key vs_id : string)
    (web_enabled document_enabled : bool) (max_document_results : Z) :
    M AppError DispatchResult :=
  exec os_environ_setitem ValueError "OPENAI_API_KEY" api_key;
  match mode_of web_enabled document_enabled with
  | None => raise (ValueError no_source_message)
  | Some mode =>
      if document_enabled && String.eqb vs_id ""
      then raise (ValueError missing_vector_store_message)
      else
        let capabilities :=
          ((if web_enabled then [WebSearchTool] else []) ++
           (if document_enabled
            then [FileSearchTool max_document_results [vs_id]] else []))%list in
        let labels := source_labels web_enabled document_enabled in
        do base <- load_agent_instructions;
        let text := base ++ directive mode ++ footer labels in
        let agent := mkAgent (AGENT_NAME config) text capabilities (AGENT_MODEL config) in
        do final_output <- Runner_run agent query;
        ret (mkResult final_output
               (mkMetadata labels web_enabled document_enabled
                  (if document_enabled then Some max_document_results else None)))
  end.

End Dispatch.

End App.

(** ** Sample processes *)

Module Samples.

Import Config App.

(** A process of the user whose home directory is [/home/user], with the
    default limit on the length of literals, given its environment, the
    external file under the home directory, the assignments of the [.env]
    file (which lies in the working directory, next to [config.py]) and
    the instructions file. *)
Definition process (env : gmap string string) (external : option JsonFile)
    (dotenv : option (list (string * string))) (instr : TextFile) : World :=
  mkWorld env [] 4300 (λ _, None) (Some "/home/user")
    (λ home, if String.eqb home "/home/user" then external else None)
    (bool_decide (is_Some dotenv))
    (match dotenv with Some assignments => Dotenv assignments | None => NoDotenv end)
    instr [].

Definition empty_world : World := process ∅ None None Absent.

(** Both required variables set, and a maximum that is not a number. *)
Definition env_bad_maximum : gmap string string :=
  <["OPENAI_API_KEY" := "sk-test"]>
  (<["VECTOR_STORE_ID" := "vs_1"]>
  (<["MAX_RESULTS_DEFAULT" := "abc"]> ∅)).

Definition env_both_keys : gmap string string :=
  <["OPENAI_API_KEY" := "sk-test"]> (<["VECTOR_STORE_ID" := "vs_1"]> ∅).

Definition world_bad_maximum : World := process env_bad_maximum None None Absent.

Definition world_both_keys : World := process env_both_keys None None Absent.

(** The same, with [HOME] set. *)
Definition world_home_and_keys : World :=
  process (<["HOME" := "/home/user"]> env_both_keys) None None Absent.

(** Both required variables set, next to a malformed external file. *)
Definition world_keys_and_malformed : World :=
  process env_both_keys (Some Malformed) None Absent.


(** A title set in the process, no external file, a [.env] file that
    gives an API key and another title, and no vector store anywhere. *)
Definition dotenv_key_and_title : list (string * string) :=
  [("OPENAI_API_KEY", "sk-file"); ("APP_TITLE", "Theirs")].

Definition world_dotenv_key : World :=
  process (<["APP_TITLE" := "Mine"]> ∅) None (Some dotenv_key_and_title) Absent.

(** No variable set, a malformed external file and a [.env] file. *)
Definition world_malformed : World :=
  process ∅ (Some Malformed) (Some [("OPENAI_API_KEY", "sk-test")]) Absent.

(** A runtime that answers every query and leaves the process alone. *)
Definition answering : Agent → string → World → result AppError string * World :=
  λ _ query w, (Ok ("Answer to: " ++ query), w).

(** The defaults, with other agent instructions. *)
Definition config_other_instructions : gmap string pyval :=
  <["AGENT_INSTRUCTIONS" := PStr "Answer in French."]> _get_defaults.

(** A web-only and a hybrid dispatch that return. *)
Definition web_only_run : result AppError DispatchResult * World :=
  run_agent _get_defaults answering "hello" "sk-test" "" true false 3 empty_world.

Definition hybrid_run : result AppError DispatchResult * World :=
  run_agent _get_defaults answering "hello" "sk-test" "vs_1" true true 5 empty_world.

Definition web_only_result : DispatchResult :=
  mkResult "Answer to: hello" (mkMetadata ["web search"] true false None).

Definition hybrid_result : DispatchResult :=
  mkResult "Answer to: hello"
    (mkMetadata ["web search"; "vector data store search"] true true (Some 5)).



(** No variable set, an external file that gives a key and a maximum, and
    a [.env] file. *)
Definition external_members : list (string * pyval) :=
  [("OPENAI_API_KEY", PStr "sk-json"); ("MAX_RESULTS_DEFAULT", PStr "seven");
   ("THEME", PStr "dark")].

Definition world_external : World :=
  process ∅ (Some (JsonObject external_members))
    (Some [("VECTOR_STORE_ID", "vs_file")]) Absent.

(** An instructions file that holds white space only, and one that cannot
    be read. *)
Definition world_blank_instructions : World :=
  process ∅ None None (Readable ("  " ++ nl)).



Definition empty_session : Session := mkSession [] [].

(** An API key that holds the character U+0000. *)
Definition key_with_nul : string := "sk" ++ String (ascii_of_nat 0) "test".

(** A literal of 4301 digits, and the digit 7 after the separator 28. *)
Definition literal_4301 : string := string_of_list_ascii (repeat "7"%char 4301).

Definition literal_after_separator : string := String (ascii_of_nat 28) "7".

End Samples.

(** ** The string helpers on examples *)

Module PyFacts.

Import Samples.

Example int_default : int_of_ascii 4300 "3" = Some 3.
Proof. reflexivity. Qed.

Example int_padded : int_of_ascii 4300 (" -42 " ++ nl) = Some (-42).
Proof. reflexivity. Qed.

Example int_grouped : int_of_ascii 4300 "+1_000" = Some 1000.
Proof. reflexivity. Qed.

Example int_leading_zeros : int_of_ascii 4300 "007" = Some 7.
Proof. reflexivity. Qed.

Example int_word : int_of_ascii 4300 "abc" = None.
Proof. reflexivity. Qed.

Example int_empty : int_of_ascii 4300 "" = None ∧ int_of_ascii 4300 "-" = None.
Proof. split; reflexivity. Qed.

Example int_bad_grouping :
  int_of_ascii 4300 "1__0" = None ∧ int_of_ascii 4300 "_1" = None ∧
  int_of_ascii 4300 "1_" = None ∧ int_of_ascii 4300 "+ 1" = None.
Proof. repeat split. Qed.

(** The separators 28..31 are white space for [strip], not for [int]. *)
Example int_after_separator :
  strip literal_after_separator = "7" ∧
  int_of_ascii 4300 literal_after_separator = None.
Proof. split; reflexivity. Qed.

(** A literal of 4301 digits is over the default limit, not over a limit
    of 5000, and any length passes when the limit is off. *)
Example int_over_the_limit :
  int_of_ascii 4300 literal_4301 = None ∧
  is_Some (int_of_ascii 5000 literal_4301) ∧
  is_Some (int_of_ascii 0 literal_4301).
Proof. repeat split; vm_compute; eauto. Qed.

Example has_nul_key : has_nul key_with_nul = true ∧ has_nul "sk-test" = false.
Proof. split; reflexivity. Qed.

Example lower_mixed_case : lower "TrUe" = "true".
Proof. reflexivity. Qed.

Example strip_both_ends : strip (nl ++ "  be brief. " ++ nl) = "be brief.".
Proof. reflexivity. Qed.

Example join_two : join " and " ["web search"; "vector data store search"] =
  "web search and vector data store search".
Proof. reflexivity. Qed.

Example join_one : join " and " ["web search"] = "web search".
Proof. reflexivity. Qed.

End PyFacts.

(** ** Properties of the configuration resolution *)

Module ConfigFacts.

Import Config Samples.

Ltac run_monad :=
  unfold bind, get, ret, raise, modify, print, try_except; simpl.

Lemma from_environment_getenv key dflt env :
  from_environment key dflt env = getenv env key dflt.
Proof. unfold from_environment, getenv. by destruct (env !! key). Qed.

(** [_load_from_env] leaves the process as it is. *)
Lemma load_from_env_world w : (_load_from_env w).2 = w.
Proof.
  unfold _load_from_env, getenv_int. run_monad.
  by destruct (py_int w _).
Qed.

(** With a maximum that [int] accepts, [_load_from_env] returns, and
    what it returns is environment sourced. *)
Lemma load_from_env_returns w n :
  py_int w (getenv (environ w) "MAX_RESULTS_DEFAULT" "3") = Some n →
  ∃ c, _load_from_env w = (Ok c, w) ∧ environment_sourced (environ w) n c.
Proof.
  intros Hn. unfold _load_from_env, getenv_int. run_monad. rewrite Hn. simpl.
  eexists. split; [reflexivity|].
  unfold environment_sourced, getenv_bool.
  rewrite !from_environment_getenv.
  repeat split; try by simplify_map_eq.
  intros key Hkey.
  repeat (apply lookup_insert_is_Some' in Hkey as [<-|Hkey];
          [by repeat first [apply list_elem_of_here | apply list_elem_of_further]|]).
  rewrite lookup_empty in Hkey. by destruct Hkey.
Qed.

(** With a maximum that [int] refuses, [_load_from_env] raises. *)
Lemma load_from_env_raises w :
  py_int w (getenv (environ w) "MAX_RESULTS_DEFAULT" "3") = None →
  _load_from_env w =
    (Raise (InvalidIntLiteral (getenv (environ w) "MAX_RESULTS_DEFAULT" "3")), w).
Proof.
  intros Hn. unfold _load_from_env, getenv_int. run_monad. by rewrite Hn.
Qed.

Lemma external_config_found w f :
  external_config w = Some f →
  ∃ home, home_directory w = Some home ∧ config_json w home = Some f.
Proof.
  unfold external_config. destruct (home_directory w) as [home|]; [|discriminate].
  intros Hf. by exists home.
Qed.



Local Abbreviation printed l w := (set_stdout (λ out, (out ++ [l])%list) w).

(** The steps of [_load_configuration], one lemma each. *)
Lemma resolution_step_environment w :
  _has_required_env_vars (environ w) = true →
  _load_configuration w = _load_from_env (printed LoadingFromEnvironment w).
Proof. intros H. unfold _load_configuration. run_monad. by rewrite H. Qed.

Lemma resolution_step_no_home w :
  _has_required_env_vars (environ w) = false →
  home_directory w = None →
  _load_configuration w = (Raise HomeDirectoryError, w).
Proof.
  intros H Hhome. unfold _load_configuration, Path_home. run_monad.
  by rewrite H, Hhome.
Qed.

Lemma resolution_step_external w f :
  _has_required_env_vars (environ w) = false →
  external_config w = Some f →
  _load_configuration w = _load_from_json f (printed LoadingFromExternalConfig w).
Proof.
  intros H (home & Hhome & Hf)%external_config_found.
  unfold _load_configuration, Path_home. run_monad.
  by rewrite H, Hhome; simpl; rewrite Hf.
Qed.




(** C1, as stated, fails: with both required variables set and
    [MAX_RESULTS_DEFAULT=abc], resolution does not return a Settings
    value, it raises the [ValueError] of [int]. *)
Lemma C1_bad_maximum_raises :
  _has_required_env_vars (environ world_bad_maximum) = true ∧
  (_load_configuration world_bad_maximum).1 = Raise (InvalidIntLiteral "abc").
Proof. split; vm_compute; reflexivity. Qed.

(** C1, amended: when both required variables are set and not empty,
    and [int] accepts the maximum (the variable [MAX_RESULTS_DEFAULT], or
    "3" when it is unset) and reads it as [n], resolution returns the
    environment-sourced Settings, with the default of every unset
    optional key and no other key, and returns the same value whatever
    external JSON file exists under any home directory, whether or not a
    [.env] file exists and whatever [load_dotenv()] would find; it prints
    one line and changes nothing else. *)
Theorem C1_environment_has_priority w n :
  _has_required_env_vars (environ w) = true →
  py_int w (getenv (environ w) "MAX_RESULTS_DEFAULT" "3") = Some n →
  ∃ c, environment_sourced (environ w) n c ∧
       ∀ files in_cwd found,
         _load_configuration (with_files files in_cwd found w) =
           (Ok c, with_files files in_cwd found
                    (set_stdout (λ out, (out ++ [LoadingFromEnvironment])%list) w)).
Proof.
  intros Hreq Hn.
  destruct (load_from_env_returns (printed LoadingFromEnvironment w) n Hn)
    as (c & Hc & Hsrc).
  exists c. split; [exact Hsrc|]. intros files in_cwd found.
  rewrite resolution_step_environment by exact Hreq.
  unfold _load_from_env, getenv_int in *. revert Hc. run_monad.
  change (py_int (printed LoadingFromEnvironment w)) with (py_int w).
  change (py_int (printed LoadingFromEnvironment (with_files files in_cwd found w)))
    with (py_int w).
  rewrite Hn. simpl. by intros [= <-].
Qed.

Lemma C1_environment_has_priority_witness :
  ∃ c, environment_sourced (environ world_both_keys) 3 c ∧
       ∀ files in_cwd found,
         _load_configuration (with_files files in_cwd found world_both_keys) =
           (Ok c, with_files files in_cwd found
                    (set_stdout (λ out, (out ++ [LoadingFromEnvironment])%list)
                       world_both_keys)).
Proof. apply (C1_environment_has_priority world_both_keys 3); reflexivity. Defined.




(** The Settings of the witness: the key of the [.env] file, the title of
    the process, and no vector store. *)
Example dotenv_fallback_settings :
  match (_load_configuration world_dotenv_key).1 with
  | Ok c => Some (c !! "OPENAI_API_KEY", c !! "APP_TITLE", c !! "VECTOR_STORE_ID")
  | Raise _ => None
  end = Some (Some (PStr "sk-file"), Some (PStr "Mine"), Some (PStr "")).
Proof. vm_compute. reflexivity. Qed.

(** C5, as stated, fails: with both required variables set, a malformed
    external file is never opened and resolution returns the Settings of
    the environment, not the defaults. *)
Lemma C5_malformed_file_not_reached :
  external_config world_keys_and_malformed = Some Malformed ∧
  ∃ c, (_load_configuration world_keys_and_malformed).1 = Ok c ∧
       OPENAI_API_KEY c = PStr "sk-test" ∧
       c ≠ _get_defaults.
Proof.
  split; [reflexivity|].
  destruct (load_from_env_returns
              (printed LoadingFromEnvironment world_keys_and_malformed) 3 eq_refl)
    as (c & Hc & Hsrc).
  exists c. rewrite resolution_step_environment by reflexivity. rewrite Hc.
  split; [reflexivity|].
  destruct Hsrc as (Hkey & _).
  assert (OPENAI_API_KEY c = PStr "sk-test") as Hprop
    by (unfold OPENAI_API_KEY; by rewrite Hkey).
  split; [exact Hprop|]. intros ->. discriminate Hprop.
Qed.

(** C5, amended: when the environment fails the required-keys test and
    the external JSON file exists but is malformed, resolution does not
    raise: the error is caught, reported on standard output, and the
    hard-coded defaults are returned; the [.env] step is not taken, so
    the environment is left as it was. *)
Theorem C5_malformed_external_config w :
  _has_required_env_vars (environ w) = false →
  external_config w = Some Malformed →
  ∃ w', _load_configuration w = (Ok _get_defaults, w') ∧
        environ w' = environ w ∧
        stdout w' = (stdout w ++ [LoadingFromExternalConfig; ErrorLoadingConfig])%list.
Proof.
  intros Hreq Hext. eexists. split.
  - rewrite (resolution_step_external w Malformed) by assumption.
    unfold _load_from_json, json_load. run_monad. reflexivity.
  - simpl. split; [reflexivity|]. by rewrite <- app_assoc.
Qed.

Lemma C5_malformed_external_config_witness :
  ∃ w', _load_configuration world_malformed = (Ok _get_defaults, w') ∧
        environ w' = environ world_malformed ∧
        stdout w' = (stdout world_malformed ++
                       [LoadingFromExternalConfig; ErrorLoadingConfig])%list.
Proof. apply (C5_malformed_external_config world_malformed); reflexivity. Defined.



End ConfigFacts.

(** ** Properties of the dispatch *)

Module AppFacts.

Import Config App Samples.

Lemma append_assoc (a b c : string) : (a ++ b) ++ c = a ++ b ++ c.
Proof.
  induction a as [|x a IH]; [reflexivity|].
  change (String x ((a ++ b) ++ c) = String x (a ++ b ++ c)). by f_equal.
Qed.

Ltac run_monad :=
  unfold bind, get, ret, raise, modify, try_except, Runner_run; simpl.

(** What [load_agent_instructions] gives for each state of the file. *)
Lemma load_agent_instructions_cases w :
  load_agent_instructions w =
    match instructions_file w with
    | Readable contents => (Ok (strip contents), w)
    | Absent => (Ok fallback_instructions, w)
    | Unreadable msg => (Raise (OSError msg), w)
    end.
Proof.
  unfold load_agent_instructions, read_text. run_monad.
  by destruct (instructions_file w).
Qed.

(** [os.environ["OPENAI_API_KEY"] = api_key] is refused exactly when the
    key holds U+0000. *)
Lemma setitem_api_key (api_key : string) w :
  os_environ_setitem ValueError "OPENAI_API_KEY" api_key w =
    if has_nul api_key
    then (Raise (ValueError "embedded null byte"), w)
    else (Ok tt, os_environ_set "OPENAI_API_KEY" api_key w).
Proof.
  unfold os_environ_setitem, putenv_error.
  change (has_nul "OPENAI_API_KEY" || has_nul api_key) with (has_nul api_key).
  by destruct (has_nul api_key).
Qed.

Lemma bind_setitem_api_key {A} (api_key : string) (k : unit → M AppError A) w :
  bind (os_environ_setitem ValueError "OPENAI_API_KEY" api_key) k w =
    if has_nul api_key
    then (Raise (ValueError "embedded null byte"), w)
    else k tt (os_environ_set "OPENAI_API_KEY" api_key w).
Proof. unfold bind. rewrite setitem_api_key. by destruct (has_nul api_key). Qed.

Section Dispatch.

Variable config : gmap string pyval.
Variable runtime : Agent → string → World → result AppError string * World.

(** [run_agent] tests the vector store before it tests that a source is
    enabled; the two tests cannot both fail, so it behaves as the
    dispatch that tests them in the other order. *)
Lemma run_agent_stated_order query api_key vs_id web docs max w :
  run_agent config runtime query api_key vs_id web docs max w =
  dispatch_in_stated_order config runtime query api_key vs_id web docs max w.
Proof.
  unfold run_agent, dispatch_in_stated_order, footer, source_labels.
  rewrite !bind_setitem_api_key.
  destruct (has_nul api_key); [reflexivity|].
  destruct web, docs; run_monad;
    try destruct (String.eqb vs_id "") eqn:Hvs; simpl; try reflexivity;
    rewrite load_agent_instructions_cases; simpl;
    destruct (instructions_file w); simpl; try reflexivity;
    rewrite ?append_assoc; reflexivity.
Qed.

(** Every path of [run_agent]. *)
Lemma run_agent_outcome query api_key vs_id web docs max w :
  run_agent config runtime query api_key vs_id web docs max w =
    if has_nul api_key then (Raise (ValueError "embedded null byte"), w)
    else
      let w1 := os_environ_set "OPENAI_API_KEY" api_key w in
      match mode_of web docs with
      | None => (Raise (ValueError no_source_message), w1)
      | Some mode =>
          if docs && String.eqb vs_id ""
          then (Raise (ValueError missing_vector_store_message), w1)
          else
            match instructions_file w with
            | Unreadable msg => (Raise (OSError msg), w1)
            | file =>
                let base := match file with
                            | Readable contents => strip contents
                            | _ => fallback_instructions
                            end in
                let agent :=
                  mkAgent (AGENT_NAME config)
                    (base ++ directive mode ++ footer (source_labels web docs))
                    ((if web then [WebSearchTool] else []) ++
                     (if docs then [FileSearchTool max [vs_id]] else []))%list
                    (AGENT_MODEL config) in
                (match (runtime agent query w1).1 with
                 | Ok out =>
                     Ok (mkResult out
                           (mkMetadata (source_labels web docs) web docs
                              (if docs then Some max else None)))
                 | Raise e => Raise e
                 end,
                 set_agent_runs (λ _, (agent_runs w ++ [(agent, query)])%list)
                   (runtime agent query w1).2)
            end
      end.
Proof.
  rewrite run_agent_stated_order. unfold dispatch_in_stated_order.
  rewrite bind_setitem_api_key. destruct (has_nul api_key); [reflexivity|].
  cbv zeta. destruct (mode_of web docs) as [mode|]; [|reflexivity].
  destruct (docs && String.eqb vs_id ""); [reflexivity|].
  run_monad. rewrite load_agent_instructions_cases. simpl.
  destruct (instructions_file w) as [|msg|contents]; simpl; try reflexivity.
  all: match goal with
       | |- context [runtime ?a ?q ?w0] => by destruct (runtime a q w0) as [[out|e] w2]
       end.
Qed.

(** The anatomy of a dispatch that returns. *)
Lemma run_agent_returns query api_key vs_id web docs max w r w' :
  run_agent config runtime query api_key vs_id web docs max w = (Ok r, w') →
  ∃ base mode agent,
    (load_agent_instructions w).1 = Ok base ∧
    mode_of web docs = Some mode ∧
    (docs = true → vs_id ≠ "") ∧
    has_nul api_key = false ∧
    agent = mkAgent (AGENT_NAME config)
              (base ++ directive mode ++ footer (source_labels web docs))
              ((if web then [WebSearchTool] else []) ++
               (if docs then [FileSearchTool max [vs_id]] else []))%list
              (AGENT_MODEL config) ∧
    (runtime agent query (os_environ_set "OPENAI_API_KEY" api_key w)).1 =
      Ok (response r) ∧
    metadata r = mkMetadata (source_labels web docs) web docs
                   (if docs then Some max else None) ∧
    w' = set_agent_runs (λ _, (agent_runs w ++ [(agent, query)])%list)
           (runtime agent query (os_environ_set "OPENAI_API_KEY" api_key w)).2.
Proof.
  rewrite run_agent_outcome.
  destruct (has_nul api_key); [discriminate|]. cbv zeta.
  destruct (mode_of web docs) as [mode|] eqn:Hmode; [|discriminate].
  destruct (docs && String.eqb vs_id "") eqn:Hvs; [discriminate|].
  rewrite load_agent_instructions_cases.
  destruct (instructions_file w) as [|msg|contents]; simpl; try discriminate.
  all: match goal with
       | |- context [runtime ?a ?q ?w0] =>
           destruct (runtime a q w0) as [[out|e] w2] eqn:Hrun; simpl; [|discriminate]
       end.
  all: intros [= <- <-]; eexists _, mode, _.
  all: repeat split; try reflexivity; try (by rewrite Hrun).
  all: intros -> ->; discriminate Hvs.
Qed.



(** C6: in every dispatch that returns, the agent that is run has for
    instruction text the base instructions, then the directive of the
    mode, document-only, web-only or hybrid according to the two flags,
    then the footer naming the active sources joined with " and "; one
    source at least is on, the metadata lists the labels of the sources
    that are on, and with both on it lists "web search" then
    "vector data store search". *)
Theorem C6_instruction_text query api_key vs_id web docs max w r w' :
  run_agent config runtime query api_key vs_id web docs max w = (Ok r, w') →
  ∃ base agent,
    (load_agent_instructions w).1 = Ok base ∧
    agent_runs w' = (agent_runs w ++ [(agent, query)])%list ∧
    (web = true ∨ docs = true) ∧
    instructions agent =
      base ++
      match web, docs with
      | false, true =>
          nl ++ nl ++ "CURRENT SESSION MODE: DOCUMENT-ONLY SEARCH. You can ONLY use information from the uploaded documents via vector search. Do NOT use any general knowledge, training data, or external information. If the answer is not in the documents, clearly state 'I don't have information about [topic] in the uploaded documents.'" ++
          nl ++ nl ++ "CURRENT ACTIVE SOURCES: vector data store search"
      | true, false =>
          nl ++ nl ++ "CURRENT SESSION MODE: WEB-ONLY SEARCH. You can only use information from web search results." ++
          nl ++ nl ++ "CURRENT ACTIVE SOURCES: web search"
      | true, true =>
          nl ++ nl ++ "CURRENT SESSION MODE: HYBRID SEARCH. You have access to both document search and web search. Use both sources appropriately." ++
          nl ++ nl ++ "CURRENT ACTIVE SOURCES: web search and vector data store search"
      | false, false => ""
      end ∧
    sources_enabled (metadata r) =
      ((if web then ["web search"] else []) ++
       (if docs then ["vector data store search"] else []))%list ∧
    (web = true → docs = true →
     sources_enabled (metadata r) = ["web search"; "vector data store search"]).
Proof.
  intros Hrun.
  destruct (run_agent_returns _ _ _ _ _ _ _ _ _ Hrun)
    as (base & mode & agent & Hbase & Hmode & _ & _ & Hagent & _ & Hmeta & Hw').
  exists base, agent. rewrite Hmeta, Hw', Hagent. simpl.
  destruct web, docs; try discriminate Hmode; injection Hmode as <-;
    repeat split; auto; intros; discriminate.
Qed.

(** C7: in every dispatch that returns, the metadata carries the
    configured maximum exactly when document search is on, and nothing
    otherwise; a web-only dispatch returns the metadata
    [{sources_enabled: ["web search"], web_search: true,
      document_search: false, max_doc_results: null}]. *)
Theorem C7_metadata query api_key vs_id web docs max w r w' :
  run_agent config runtime query api_key vs_id web docs max w = (Ok r, w') →
  max_doc_results (metadata r) = (if docs then Some max else None) ∧
  (web = true → docs = false →
   metadata r = mkMetadata ["web search"] true false None).
Proof.
  intros Hrun.
  destruct (run_agent_returns _ _ _ _ _ _ _ _ _ Hrun)
    as (_ & _ & _ & _ & _ & _ & _ & _ & _ & Hmeta & _).
  rewrite Hmeta. split; [reflexivity|]. by intros -> ->.
Qed.


End Dispatch.




Lemma C6_instruction_text_witness :
  ∃ base agent,
    (load_agent_instructions empty_world).1 = Ok base ∧
    agent_runs hybrid_run.2 = (agent_runs empty_world ++ [(agent, "hello")])%list ∧
    (true = true ∨ true = true) ∧
    instructions agent =
      base ++
      match true, true with
      | false, true =>
          nl ++ nl ++ "CURRENT SESSION MODE: DOCUMENT-ONLY SEARCH. You can ONLY use information from the uploaded documents via vector search. Do NOT use any general knowledge, training data, or external information. If the answer is not in the documents, clearly state 'I don't have information about [topic] in the uploaded documents.'" ++
          nl ++ nl ++ "CURRENT ACTIVE SOURCES: vector data store search"
      | true, false =>
          nl ++ nl ++ "CURRENT SESSION MODE: WEB-ONLY SEARCH. You can only use information from web search results." ++
          nl ++ nl ++ "CURRENT ACTIVE SOURCES: web search"
      | true, true =>
          nl ++ nl ++ "CURRENT SESSION MODE: HYBRID SEARCH. You have access to both document search and web search. Use both sources appropriately." ++
          nl ++ nl ++ "CURRENT ACTIVE SOURCES: web search and vector data store search"
      | false, false => ""
      end ∧
    sources_enabled (metadata hybrid_result) =
      ((if true then ["web search"] else []) ++
       (if true then ["vector data store search"] else []))%list ∧
    (true = true → true = true →
     sources_enabled (metadata hybrid_result) = ["web search"; "vector data store search"]).
Proof.
  apply (C6_instruction_text _get_defaults answering "hello" "sk-test" "vs_1" true true 5
           empty_world hybrid_result hybrid_run.2).
  reflexivity.
Defined.

Lemma C7_metadata_witness :
  max_doc_results (metadata web_only_result) = None ∧
  (true = true → false = false →
   metadata web_only_result = mkMetadata ["web search"] true false None).
Proof.
  apply (C7_metadata _get_defaults answering "hello" "sk-test" "" true false 3 empty_world
           web_only_result web_only_run.2).
  reflexivity.
Defined.

(** C10: [run_agent] does not read the [AGENT_INSTRUCTIONS] setting: two
    configurations that differ in this key only give the same dispatch,
    outcome and process alike; and when the dispatch returns, the
    instruction text of the agent is made of the contents of
    [agent_instructions.txt], stripped, or of the built-in fallback when
    the file is absent, followed by the mode directive and the footer. *)
Theorem C10_agent_instructions_unused (config1 config2 : gmap string pyval)
    runtime query api_key vs_id web docs max w :
  (∀ key, key ≠ "AGENT_INSTRUCTIONS" → config1 !! key = config2 !! key) →
  run_agent config1 runtime query api_key vs_id web docs max w =
    run_agent config2 runtime query api_key vs_id web docs max w ∧
  ∀ r w',
    run_agent config1 runtime query api_key vs_id web docs max w = (Ok r, w') →
    ∃ base mode agent,
      match instructions_file w with
      | Readable contents => base = strip contents
      | Absent => base = fallback_instructions
      | Unreadable _ => False
      end ∧
      mode_of web docs = Some mode ∧
      agent_runs w' = (agent_runs w ++ [(agent, query)])%list ∧
      instructions agent = base ++ directive mode ++ footer (source_labels web docs).
Proof.
  intros Hsame. split.
  - assert (AGENT_NAME config1 = AGENT_NAME config2) as Hname
      by (unfold AGENT_NAME; by rewrite Hsame).
    assert (AGENT_MODEL config1 = AGENT_MODEL config2) as Hmodel
      by (unfold AGENT_MODEL; by rewrite Hsame).
    unfold run_agent. by rewrite Hname, Hmodel.
  - intros r w' Hrun.
    destruct (run_agent_returns _ _ _ _ _ _ _ _ _ _ _ Hrun)
      as (base & mode & agent & Hbase & Hmode & _ & _ & Hagent & _ & _ & Hw').
    exists base, mode, agent. rewrite Hw', Hagent. simpl.
    repeat split; try assumption.
    rewrite load_agent_instructions_cases in Hbase.
    destruct (instructions_file w); simpl in Hbase; congruence.
Qed.

Lemma C10_agent_instructions_unused_witness :
  run_agent _get_defaults answering "hello" "sk-test" "vs_1" true true 5 empty_world =
    run_agent config_other_instructions answering "hello" "sk-test" "vs_1" true true 5
      empty_world ∧
  ∀ r w',
    run_agent _get_defaults answering "hello" "sk-test" "vs_1" true true 5 empty_world =
      (Ok r, w') →
    ∃ base mode agent,
      match instructions_file empty_world with
      | Readable contents => base = strip contents
      | Absent => base = fallback_instructions
      | Unreadable _ => False
      end ∧
      mode_of true true = Some mode ∧
      agent_runs w' = (agent_runs empty_world ++ [(agent, "hello")])%list ∧
      instructions agent = base ++ directive mode ++ footer (source_labels true true).
Proof.
  apply (C10_agent_instructions_unused _get_defaults config_other_instructions).
  intros key Hkey. unfold config_other_instructions.
  symmetry. by apply lookup_insert_ne.
Defined.

End AppFacts.
(** ** Further properties of the configuration *)

Module ConfigMore.

Import Config Samples ConfigFacts.

Ltac run_monad :=
  unfold bind, get, ret, raise, modify, print, try_except; simpl.

(** *** Merging the external file *)

Lemma dict_update_app (d : gmap string pyval) l1 l2 :
  dict_update d (l1 ++ l2) = dict_update (dict_update d l1) l2.
Proof. unfold dict_update. by rewrite foldl_app. Qed.

Lemma dict_update_lookup_unmentioned (d : gmap string pyval) members key :
  key ∉ members.*1 →
  dict_update d members !! key = d !! key.
Proof.
  revert d. induction members as [|[k v] members IH]; intros d Hnot; [reflexivity|].
  apply not_elem_of_cons in Hnot as [Hne Hnot]. simpl in Hne.
  change (dict_update (<[k := v]> d) members !! key = d !! key).
  rewrite IH by exact Hnot. by apply lookup_insert_ne.
Qed.

Lemma dict_update_keeps_keys (d : gmap string pyval) members key :
  is_Some (d !! key) → is_Some (dict_update d members !! key).
Proof.
  revert d. induction members as [|[k v] members IH]; intros d Hd; [exact Hd|].
  change (is_Some (dict_update (<[k := v]> d) members !! key)).
  apply IH. apply lookup_insert_is_Some'. by right.
Qed.

(** X1: a key the external file does not mention keeps the value it had
    before the merge. *)
Theorem X1_update_keeps_unmentioned (d : gmap string pyval) members key :
  key ∉ members.*1 →
  dict_update d members !! key = d !! key.
Proof. apply dict_update_lookup_unmentioned. Qed.

Lemma X1_update_keeps_unmentioned_witness :
  dict_update _get_defaults external_members !! "APP_TITLE" =
    _get_defaults !! "APP_TITLE".
Proof.
  apply (X1_update_keeps_unmentioned _get_defaults external_members "APP_TITLE").
  vm_compute. intros H.
  repeat (apply elem_of_cons in H as [H|H]; [discriminate H|]).
  by apply elem_of_nil in H.
Defined.

(** X2: a key the external file gives takes the value of the file, as it
    is written there, whatever the value before; when the file gives it
    more than once, the last one counts. *)
Theorem X2_update_last_member_wins (d : gmap string pyval) before after key v :
  key ∉ after.*1 →
  dict_update d (before ++ (key, v) :: after) !! key = Some v.
Proof.
  intros Hnot. rewrite dict_update_app.
  change (dict_update (<[key := v]> (dict_update d before)) after !! key = Some v).
  rewrite dict_update_lookup_unmentioned by exact Hnot. apply lookup_insert_eq.
Qed.

Lemma X2_update_last_member_wins_witness :
  dict_update _get_defaults
    ([("OPENAI_API_KEY", PStr "sk-json")] ++
     ("MAX_RESULTS_DEFAULT", PStr "seven") :: [("THEME", PStr "dark")])
    !! "MAX_RESULTS_DEFAULT" = Some (PStr "seven").
Proof.
  apply (X2_update_last_member_wins _get_defaults).
  vm_compute. intros H.
  repeat (apply elem_of_cons in H as [H|H]; [discriminate H|]).
  by apply elem_of_nil in H.
Defined.

(** *** The anatomy of a resolution *)

Local Abbreviation printed l w := (set_stdout (λ out, (out ++ [l])%list) w).

Lemma load_configuration_unfold w :
  _load_configuration w =
    if _has_required_env_vars (environ w)
    then _load_from_env (printed LoadingFromEnvironment w)
    else match home_directory w with
         | None => (Raise HomeDirectoryError, w)
         | Some home =>
             match config_json w home with
             | Some f => _load_from_json f (printed LoadingFromExternalConfig w)
             | None =>
                 if dotenv_in_cwd w
                 then bind load_dotenv (λ _, _load_from_env) (printed LoadingFromDotenv w)
                 else (Ok _get_defaults, printed NoConfigurationFound w)
             end
         end.
Proof.
  unfold _load_configuration, Path_home. run_monad.
  destruct (_has_required_env_vars (environ w)); [reflexivity|].
  destruct (home_directory w) as [home|]; [|reflexivity]. simpl.
  destruct (config_json w home); [reflexivity|].
  by destruct (dotenv_in_cwd w).
Qed.

Lemma load_from_env_outcome w1 w2 :
  environ w1 = environ w2 →
  int_max_str_digits w1 = int_max_str_digits w2 →
  int_non_ascii w1 = int_non_ascii w2 →
  (_load_from_env w1).1 = (_load_from_env w2).1.
Proof.
  intros Henv Hmax Hnon. unfold _load_from_env, getenv_int, py_int. run_monad.
  rewrite Henv, Hmax, Hnon.
  by destruct (if is_ascii_text _ then _ else _).
Qed.

Lemma load_from_json_outcome f w :
  _load_from_json f w =
    match f with
    | JsonObject members => (Ok (dict_update _get_defaults members), w)
    | Malformed => (Ok _get_defaults, printed ErrorLoadingConfig w)
    end.
Proof. by destruct f. Qed.

(** [load_dotenv()] changes nothing but the environment, where it only
    adds variables, also when it raises half way. *)
Lemma set_as_environment_variables_frame assignments w :
  ∃ env, (set_as_environment_variables assignments w).2 = set_environ (λ _, env) w ∧
         environ w ⊆ env.
Proof.
  revert w. induction assignments as [|[key value] rest IH]; intros w.
  { exists (environ w). split; [by destruct w|reflexivity]. }
  simpl. run_monad. destruct (environ w !! key) as [old|] eqn:Hold; [apply IH|].
  unfold os_environ_setitem. destruct (putenv_error key value); run_monad.
  { exists (environ w). split; [by destruct w|reflexivity]. }
  destruct (IH (os_environ_set key value w)) as (env & Heq & Hsub).
  exists env. split.
  - destruct (set_as_environment_variables rest (os_environ_set key value w))
      as [[u|e] w2]; simpl in *; by rewrite Heq.
  - etrans; [|exact Hsub]. simpl. by apply insert_subseteq.
Qed.

Lemma load_dotenv_frame w :
  ∃ env, (load_dotenv w).2 = set_environ (λ _, env) w ∧ environ w ⊆ env.
Proof.
  unfold load_dotenv. run_monad. destruct (dotenv_found w) as [|msg|assignments].
  1,2: exists (environ w); split; [by destruct w|reflexivity].
  apply set_as_environment_variables_frame.
Qed.

(** When [load_dotenv()] returns, every variable of the file the process
    did not have has the value of the file. *)
Lemma set_as_environment_variables_returns assignments w u w' :
  set_as_environment_variables assignments w = (Ok u, w') →
  w' = set_environ (λ env, env ∪ list_to_map assignments) w.
Proof.
  revert w. induction assignments as [|[key value] rest IH]; intros w.
  { simpl. intros [= _ <-]. unfold set_environ. simpl.
    rewrite (right_id_L ∅ (∪)). by destruct w. }
  simpl. run_monad. destruct (environ w !! key) as [old|] eqn:Hold.
  - intros ->%IH. unfold set_environ. simpl. f_equal.
    apply map_eq. intros k. rewrite !lookup_union.
    destruct (decide (key = k)) as [<-|Hne].
    + rewrite Hold, lookup_insert_eq. by destruct (list_to_map rest !! key).
    + by rewrite lookup_insert_ne.
  - unfold os_environ_setitem. destruct (putenv_error key value); run_monad;
      [discriminate|].
    intros ->%IH. unfold set_environ, os_environ_set, set_environ. simpl.
    f_equal. rewrite <- insert_union_l. by rewrite <- insert_union_r.
Qed.

(** When the process has every variable of the file, [load_dotenv()]
    changes nothing. *)
Lemma set_as_environment_variables_present assignments w :
  (∀ key, key ∈ assignments.*1 → is_Some (environ w !! key)) →
  set_as_environment_variables assignments w = (Ok tt, w).
Proof.
  induction assignments as [|[key value] rest IH]; intros Hall; [reflexivity|].
  simpl. run_monad.
  destruct (Hall key) as [old ->]; [by left|].
  apply IH. intros k Hk. apply Hall. by right.
Qed.

(** X3: every configuration a resolution returns holds all the keys of
    the defaults, so the fallback value of a property is never used. *)
Theorem X3_resolved_configuration_is_complete w c w' :
  _load_configuration w = (Ok c, w') →
  ∀ key, is_Some (_get_defaults !! key) → is_Some (c !! key).
Proof.
  intros Hload key Hkey.
  assert (∀ w0 c0 w1, _load_from_env w0 = (Ok c0, w1) → is_Some (c0 !! key)) as Henv.
  { intros w0 c0 w1. unfold _load_from_env, getenv_int. run_monad.
    destruct (py_int w0 _); [|discriminate]. simpl. intros [= <- _].
    unfold _get_defaults in Hkey.
    repeat (apply lookup_insert_is_Some' in Hkey as [<-|Hkey];
            [by simplify_map_eq|]).
    rewrite lookup_empty in Hkey. by destruct Hkey. }
  rewrite load_configuration_unfold in Hload.
  destruct (_has_required_env_vars (environ w)); [by eapply Henv|].
  destruct (home_directory w) as [home|]; [|discriminate].
  destruct (config_json w home) as [f|].
  { rewrite load_from_json_outcome in Hload.
    destruct f; injection Hload as <- _; [exact Hkey|].
    by apply dict_update_keeps_keys. }
  destruct (dotenv_in_cwd w); [|by injection Hload as <- _].
  revert Hload. unfold bind.
  destruct (load_dotenv _) as [[u|e] w1]; [|discriminate]. by eapply Henv.
Qed.

Lemma X3_resolved_configuration_is_complete_witness :
  is_Some (dict_update _get_defaults external_members !! "AGENT_MODEL").
Proof.
  apply (X3_resolved_configuration_is_complete world_external
           (dict_update _get_defaults external_members)
           (set_stdout (λ out, (out ++ [LoadingFromExternalConfig])%list) world_external)
           eq_refl "AGENT_MODEL").
  by eexists.
Defined.


Lemma resolution_keeps_variables w : environ w ⊆ environ (_load_configuration w).2.
Proof.
  rewrite load_configuration_unfold.
  destruct (_has_required_env_vars (environ w)); [by rewrite load_from_env_world|].
  destruct (home_directory w) as [home|]; [|done].
  destruct (config_json w home) as [[|members]|];
    [by rewrite load_from_json_outcome..|].
  destruct (dotenv_in_cwd w); [|done].
  unfold bind.
  destruct (load_dotenv_frame (printed LoadingFromDotenv w)) as (env & Heq & Hsub).
  destruct (load_dotenv (printed LoadingFromDotenv w)) as [[u|e] w1];
    simpl in Heq; subst w1; by rewrite ?load_from_env_world.
Qed.

(** X5: a resolution never removes or changes a variable of the process:
    the environment only grows (by the [.env] step); the files on disk,
    the password database, the limits of the interpreter and the record
    of agent runs are untouched, and what was printed before stays
    printed. This holds also when the resolution raises. *)
Theorem X5_resolution_frame w :
  environ w ⊆ environ (_load_configuration w).2 ∧
  config_json (_load_configuration w).2 = config_json w ∧
  passwd_home (_load_configuration w).2 = passwd_home w ∧
  dotenv_in_cwd (_load_configuration w).2 = dotenv_in_cwd w ∧
  dotenv_found (_load_configuration w).2 = dotenv_found w ∧
  instructions_file (_load_configuration w).2 = instructions_file w ∧
  agent_runs (_load_configuration w).2 = agent_runs w ∧
  stdout w `prefix_of` stdout (_load_configuration w).2.
Proof.
  rewrite load_configuration_unfold.
  destruct (_has_required_env_vars (environ w)).
  { rewrite load_from_env_world. repeat split; try done. by apply prefix_app_r. }
  destruct (home_directory w) as [home|]; [|by repeat split].
  destruct (config_json w home) as [[|members]|] eqn:Hf.
  1,2: rewrite load_from_json_outcome; repeat split; try done; simpl;
       rewrite <- ?app_assoc; by apply prefix_app_r.
  destruct (dotenv_in_cwd w) eqn:Hcwd;
    [|repeat split; try done; by apply prefix_app_r].
  unfold bind.
  destruct (load_dotenv_frame (printed LoadingFromDotenv w)) as (env & Heq & Hsub).
  destruct (load_dotenv (printed LoadingFromDotenv w)) as [[u|e] w1];
    simpl in Heq; subst w1; rewrite ?load_from_env_world; simpl;
    repeat split; try done; by apply prefix_app_r.
Qed.

(** Resolving again, in the process a first resolution leaves, gives the
    same Settings, provided the first resolution did not change the home
    directory. *)
Lemma load_configuration_again w c w1 :
  _load_configuration w = (Ok c, w1) →
  home_directory w1 = home_directory w →
  ∃ w2, _load_configuration w1 = (Ok c, w2) ∧ environ w2 = environ w1.
Proof.
  assert (∀ w0 w0' w0'', _load_from_env w0 = (Ok c, w0'') →
            environ w0' = environ w0 → int_max_str_digits w0' = int_max_str_digits w0 →
            int_non_ascii w0' = int_non_ascii w0 →
            _load_from_env w0' = (Ok c, w0')) as Henv.
  { intros w0 w0' w0'' Hload He Hm Hn.
    rewrite (surjective_pairing (_load_from_env w0')), load_from_env_world.
    by rewrite (load_from_env_outcome w0' w0), Hload. }
  assert (∀ w0 w0', _load_from_env w0 = (Ok c, w0') → w0' = w0) as Hsame.
  { intros w0 w0' Hload. by rewrite <- (load_from_env_world w0), Hload. }
  intros Hload Hhome.
  rewrite (load_configuration_unfold w1). rewrite load_configuration_unfold in Hload.
  destruct (_has_required_env_vars (environ w)) eqn:Hreq.
  { pose proof (Hsame _ _ Hload) as ->. simpl. rewrite Hreq.
    eexists. split; [by apply (Henv _ _ _ Hload)|reflexivity]. }
  rewrite Hhome.
  destruct (home_directory w) as [home|]; [|discriminate].
  destruct (config_json w home) as [f|] eqn:Hf.
  { rewrite load_from_json_outcome in Hload.
    destruct f; injection Hload as <- <-; simpl; rewrite Hreq, Hf;
      rewrite load_from_json_outcome; by eexists. }
  destruct (dotenv_in_cwd w) eqn:Hcwd.
  2:{ injection Hload as <- <-. simpl. rewrite Hreq, Hf, Hcwd. by eexists. }
  revert Hload. unfold bind at 1.
  destruct (load_dotenv (printed LoadingFromDotenv w)) as [[u|e] wd] eqn:Hdot;
    [|discriminate].
  intros Hload. pose proof (Hsame _ _ Hload) as ->.
  assert (environ (printed LoadingFromEnvironment wd) = environ wd) as He by done.
  destruct (load_dotenv_frame (printed LoadingFromDotenv w)) as (env & Heq & _).
  rewrite Hdot in Heq. simpl in Heq.
  destruct (_has_required_env_vars (environ wd)).
  { eexists. split; [by apply (Henv _ _ _ Hload)|reflexivity]. }
  assert (config_json wd home = None) as -> by (by rewrite Heq).
  assert (dotenv_in_cwd wd = true) as -> by (by rewrite Heq).
  assert (load_dotenv (printed LoadingFromDotenv wd) =
            (Ok tt, printed LoadingFromDotenv wd)) as Hagain.
  { revert Hdot. unfold load_dotenv. run_monad.
    assert (dotenv_found wd = dotenv_found w) as -> by (by rewrite Heq).
    destruct (dotenv_found w) as [|msg|assignments]; [done|discriminate|].
    intros ->%set_as_environment_variables_returns.
    apply set_as_environment_variables_present. intros key Hkey. simpl.
    rewrite lookup_union.
    destruct (list_to_map assignments !! key) as [v|] eqn:Hv.
    - destruct (environ w !! key); by eexists.
    - by apply not_elem_of_list_to_map in Hv. }
  unfold bind. rewrite Hagain.
  eexists. split; [by apply (Henv _ _ _ Hload)|reflexivity].
Qed.

(** X4: resolution is idempotent where it returns: resolving a second
    time, in the process the first resolution leaves (with what the
    [.env] step has loaded), returns the same Settings and leaves the
    environment as it is, provided the first resolution did not change
    the home directory (it can, when [HOME] is unset and the [.env] file
    sets it). *)
Theorem X4_resolution_is_idempotent w c w1 :
  _load_configuration w = (Ok c, w1) →
  home_directory w1 = home_directory w →
  ∃ w2, _load_configuration w1 = (Ok c, w2) ∧ environ w2 = environ w1.
Proof. apply load_configuration_again. Qed.

Lemma X4_resolution_is_idempotent_witness :
  ∃ w2, _load_configuration (_load_configuration world_dotenv_key).2 =
          (Ok (match (_load_configuration world_dotenv_key).1 with
               | Ok c => c
               | Raise _ => ∅
               end), w2) ∧
        environ w2 = environ (_load_configuration world_dotenv_key).2.
Proof.
  apply (X4_resolution_is_idempotent world_dotenv_key); reflexivity.
Defined.



(** X12: when the environment fails the required-keys test and the
    external file exists, resolution always returns, whatever the file
    holds, and never looks at the [.env] file: the environment is left as
    it was, and every key the file does not give has its default, also a
    credential that the [.env] file or the environment could supply. *)
Theorem X12_external_file_shadows_dotenv w f :
  _has_required_env_vars (environ w) = false →
  external_config w = Some f →
  ∃ c w',
    _load_configuration w = (Ok c, w') ∧
    environ w' = environ w ∧
    c = match f with
        | JsonObject members => dict_update _get_defaults members
        | Malformed => _get_defaults
        end ∧
    ∀ key, (∀ members, f = JsonObject members → key ∉ members.*1) →
           c !! key = _get_defaults !! key.
Proof.
  intros Hreq Hext. rewrite (resolution_step_external w f) by assumption.
  rewrite load_from_json_outcome. destruct f as [|members].
  - eexists _, _. repeat split.
  - eexists _, _. repeat split. intros key Hkey.
    apply dict_update_lookup_unmentioned. by apply Hkey.
Qed.

Lemma X12_external_file_shadows_dotenv_witness :
  ∃ c w',
    _load_configuration world_external = (Ok c, w') ∧
    environ w' = environ world_external ∧
    c = dict_update _get_defaults external_members ∧
    ∀ key, (∀ members, JsonObject external_members = JsonObject members →
                       key ∉ members.*1) →
           c !! key = _get_defaults !! key.
Proof.
  apply (X12_external_file_shadows_dotenv world_external (JsonObject external_members));
    reflexivity.
Defined.


(** *** Flags *)

Lemma lower_ascii_cases (c low : ascii) :
  lower_ascii c = low →
  c = low ∨ (65 ≤ nat_of_ascii c ≤ 90)%nat ∧ nat_of_ascii low = (nat_of_ascii c + 32)%nat.
Proof.
  unfold lower_ascii.
  destruct ((65 <=? nat_of_ascii c)%nat && (nat_of_ascii c <=? 90)%nat) eqn:Hup.
  - intros <-. right.
    apply andb_true_iff in Hup as [H1%Nat.leb_le H2%Nat.leb_le].
    split; [lia|]. rewrite nat_ascii_embedding; lia.
  - by left.
Qed.

Lemma lower_ascii_letter (c low up : ascii) :
  ((97 <=? nat_of_ascii low) && (nat_of_ascii low <=? 122))%nat = true →
  nat_of_ascii up = (nat_of_ascii low - 32)%nat →
  lower_ascii c = low ↔ c = low ∨ c = up.
Proof.
  intros [Hlo%Nat.leb_le Hhi%Nat.leb_le]%andb_true_iff Hup. split.
  - intros H. destruct (lower_ascii_cases c low H) as [->|[Hc Heq]]; [by left|].
    right. rewrite <- (ascii_nat_embedding c), <- (ascii_nat_embedding up).
    f_equal. lia.
  - intros [-> | ->]; unfold lower_ascii.
    + destruct ((65 <=? nat_of_ascii low)%nat && (nat_of_ascii low <=? 90)%nat) eqn:H;
        [|reflexivity].
      apply andb_true_iff in H as [_ H%Nat.leb_le]. lia.
    + rewrite Hup.
      replace ((65 <=? nat_of_ascii low - 32)%nat &&
               (nat_of_ascii low - 32 <=? 90)%nat) with true.
      * rewrite <- (ascii_nat_embedding low) at 2. f_equal. lia.
      * symmetry. apply andb_true_iff. split; apply Nat.leb_le; lia.
Qed.

(** X8: a flag of the environment is on exactly when its value is the
    word "true" in some letter case: four characters, the first t or T,
    the second r or R, the third u or U, the fourth e or E. Any other
    value (1, yes, on, a padded "true ") turns the flag off. *)
Theorem X8_flag_is_on env key dflt :
  getenv_bool env key dflt = true ↔
  ∃ c1 c2 c3 c4 : ascii,
    getenv env key dflt = String c1 (String c2 (String c3 (String c4 ""))) ∧
    (c1 = "t" ∨ c1 = "T")%char ∧ (c2 = "r" ∨ c2 = "R")%char ∧
    (c3 = "u" ∨ c3 = "U")%char ∧ (c4 = "e" ∨ c4 = "E")%char.
Proof.
  unfold getenv_bool. rewrite String.eqb_eq.
  generalize (getenv env key dflt). intros s. split.
  - destruct s as [|c1 [|c2 [|c3 [|c4 [|c5 s]]]]]; simpl; try discriminate.
    intros [= H1 H2 H3 H4]. exists c1, c2, c3, c4. split; [reflexivity|].
    repeat split.
    + apply (lower_ascii_letter c1 "t" "T"); [reflexivity|reflexivity|exact H1].
    + apply (lower_ascii_letter c2 "r" "R"); [reflexivity|reflexivity|exact H2].
    + apply (lower_ascii_letter c3 "u" "U"); [reflexivity|reflexivity|exact H3].
    + apply (lower_ascii_letter c4 "e" "E"); [reflexivity|reflexivity|exact H4].
  - intros (c1 & c2 & c3 & c4 & -> & H1 & H2 & H3 & H4). simpl.
    apply (lower_ascii_letter c1 "t" "T") in H1; [|reflexivity|reflexivity].
    apply (lower_ascii_letter c2 "r" "R") in H2; [|reflexivity|reflexivity].
    apply (lower_ascii_letter c3 "u" "U") in H3; [|reflexivity|reflexivity].
    apply (lower_ascii_letter c4 "e" "E") in H4; [|reflexivity|reflexivity].
    by rewrite H1, H2, H3, H4.
Qed.

(** *** Validation and status *)

Lemma validate_required_keys_outcome w :
  validate_required_keys w =
    match _load_configuration w with
    | (Ok c, w') =>
        (Ok (truthy (OPENAI_API_KEY c),
             if truthy (OPENAI_API_KEY c) then [] else ["OPENAI_API_KEY"]), w')
    | (Raise e, w') => (Raise e, w')
    end.
Proof.
  unfold validate_required_keys, new_Config. run_monad.
  destruct (_load_configuration w) as [[c|e] w']; [|reflexivity].
  by destruct (truthy (OPENAI_API_KEY c)).
Qed.

(** X9: [validate_required_keys] resolves the configuration anew and
    requires the API key only: the answer is valid exactly when no key is
    listed as missing, the list is empty or holds "OPENAI_API_KEY" alone,
    and an empty vector-store id or MCP url is never reported. *)
Theorem X9_only_api_key_required w ok missing w' :
  validate_required_keys w = (Ok (ok, missing), w') →
  ∃ c, _load_configuration w = (Ok c, w') ∧
       ok = truthy (OPENAI_API_KEY c) ∧
       (ok = true ↔ missing = []) ∧
       (missing = [] ∨ missing = ["OPENAI_API_KEY"]).
Proof.
  rewrite validate_required_keys_outcome.
  destruct (_load_configuration w) as [[c|e] w1]; [|discriminate].
  intros [= <- <- <-]. exists c. split; [reflexivity|]. split; [reflexivity|].
  destruct (truthy (OPENAI_API_KEY c)).
  - split; [by split|by left].
  - split; [by split|by right].
Qed.

Lemma X9_only_api_key_required_witness :
  ∃ c, _load_configuration empty_world =
         (Ok c, set_stdout (λ out, (out ++ [NoConfigurationFound])%list) empty_world) ∧
       false = truthy (OPENAI_API_KEY c) ∧
       (false = true ↔ ["OPENAI_API_KEY"] = []) ∧
       (["OPENAI_API_KEY"] = [] ∨ ["OPENAI_API_KEY"] = ["OPENAI_API_KEY"]).
Proof.
  apply (X9_only_api_key_required empty_world false ["OPENAI_API_KEY"]).
  reflexivity.
Defined.

(** X10: when both required variables are set and [int] accepts the
    maximum, validation succeeds with nothing missing, whatever files
    exist. *)
Theorem X10_environment_validates w n :
  _has_required_env_vars (environ w) = true →
  py_int w (getenv (environ w) "MAX_RESULTS_DEFAULT" "3") = Some n →
  (validate_required_keys w).1 = Ok (true, []).
Proof.
  intros Hreq Hn. rewrite validate_required_keys_outcome.
  rewrite resolution_step_environment by exact Hreq.
  destruct (load_from_env_returns
              (set_stdout (λ out, (out ++ [LoadingFromEnvironment])%list) w) n Hn)
    as (c & -> & Hkey & _).
  unfold OPENAI_API_KEY. rewrite Hkey. simpl. unfold from_environment.
  unfold _has_required_env_vars in Hreq.
  apply andb_true_iff in Hreq as [Hreq _].
  destruct (environ w !! "OPENAI_API_KEY") as [v|]; [|discriminate].
  simpl in Hreq. simpl. by rewrite Hreq.
Qed.

Lemma X10_environment_validates_witness :
  (validate_required_keys world_keys_and_malformed).1 = Ok (true, []).
Proof.
  apply (X10_environment_validates world_keys_and_malformed 3); reflexivity.
Defined.

(** X11: the status [get_env_status] reports is coherent, although it
    resolves the configuration twice, once for its own instance and once
    inside the validation: when [HOME] is set in the process, it is
    valid exactly when the API key is reported set, and the missing keys
    are none in that case and "OPENAI_API_KEY" otherwise. *)
Theorem X11_status_is_coherent w status w' :
  is_Some (environ w !! "HOME") →
  get_env_status w = (Ok status, w') →
  is_valid status = openai_key_set status ∧
  missing_keys status =
    (if openai_key_set status then [] else ["OPENAI_API_KEY"]).
Proof.
  intros [home Hhome]. unfold get_env_status, new_Config. run_monad.
  destruct (_load_configuration w) as [[c|e] w1] eqn:Hload; [|discriminate].
  destruct (load_configuration_again w c w1 Hload) as (w2 & Hagain & _).
  { pose proof (resolution_keeps_variables w) as Hsub. rewrite Hload in Hsub. simpl in Hsub.
    unfold home_directory.
    by rewrite Hhome, (lookup_weaken _ _ _ _ Hhome Hsub). }
  rewrite validate_required_keys_outcome, Hagain.
  intros [= <- <-]. simpl. split; reflexivity.
Qed.

Lemma X11_status_is_coherent_witness :
  is_valid (mkEnvStatus true [] true true false) =
    openai_key_set (mkEnvStatus true [] true true false) ∧
  missing_keys (mkEnvStatus true [] true true false) =
    (if openai_key_set (mkEnvStatus true [] true true false)
     then [] else ["OPENAI_API_KEY"]).
Proof.
  apply (X11_status_is_coherent world_home_and_keys
           (mkEnvStatus true [] true true false)
           (get_env_status world_home_and_keys).2).
  - by eexists.
  - reflexivity.
Defined.

End ConfigMore.

(** ** Further properties of the dispatch *)

Module AppMore.

Import Config App Samples AppFacts.

Ltac run_monad :=
  unfold bind, get, ret, raise, modify, try_except, Runner_run; simpl.

(** *** The base instructions *)

Lemma lstrip_blank s : forallb is_space (list_ascii_of_string s) = true → lstrip s = "".
Proof.
  induction s as [|c s IH]; [reflexivity|]. simpl.
  intros [Hc Hs]%andb_true_iff. rewrite Hc. by apply IH.
Qed.

Lemma rstrip_rstrip s : rstrip (rstrip s) = rstrip s.
Proof.
  induction s as [|c s IH]; [reflexivity|]. simpl.
  destruct (rstrip s) as [|a r] eqn:Hr.
  - destruct (is_space c) eqn:Hc; [reflexivity|]. simpl. by rewrite Hc.
  - change (rstrip (String c (String a r)) = String c (String a r)).
    simpl. simpl in IH. by rewrite IH.
Qed.

Lemma lstrip_head s : lstrip (rstrip (lstrip s)) = rstrip (lstrip s).
Proof.
  induction s as [|c s IH]; [reflexivity|]. simpl.
  destruct (is_space c) eqn:Hc; [exact IH|]. simpl.
  destruct (rstrip s) as [|a r]; rewrite ?Hc; simpl; by rewrite ?Hc.
Qed.

Lemma strip_strip s : strip (strip s) = strip s.
Proof. unfold strip. by rewrite lstrip_head, rstrip_rstrip. Qed.

(** X13: the base instructions never begin or end with white space (to
    strip them again changes nothing), and loading them leaves the process
    as it is. *)
Theorem X13_base_instructions_are_stripped w base w' :
  load_agent_instructions w = (Ok base, w') →
  strip base = base ∧ w' = w.
Proof.
  rewrite load_agent_instructions_cases.
  destruct (instructions_file w) as [|msg|contents]; intros [= <- <-].
  - split; reflexivity.
  - split; [apply strip_strip|reflexivity].
Qed.

Lemma X13_base_instructions_are_stripped_witness :
  strip "" = "" ∧ world_blank_instructions = world_blank_instructions.
Proof.
  apply (X13_base_instructions_are_stripped world_blank_instructions).
  reflexivity.
Defined.

(** X14: an instructions file that exists but holds white space only (or
    nothing) gives empty base instructions, not the built-in fallback,
    which is used only when the file is absent. *)
Theorem X14_blank_instructions_file w contents :
  instructions_file w = Readable contents →
  forallb is_space (list_ascii_of_string contents) = true →
  load_agent_instructions w = (Ok "", w).
Proof.
  intros Hfile Hblank. rewrite load_agent_instructions_cases, Hfile.
  unfold strip. by rewrite lstrip_blank.
Qed.

Lemma X14_blank_instructions_file_witness :
  load_agent_instructions world_blank_instructions = (Ok "", world_blank_instructions).
Proof.
  apply (X14_blank_instructions_file world_blank_instructions ("  " ++ nl));
    reflexivity.
Defined.

(** *** One dispatch *)

Section Dispatch.

Variable config : gmap string pyval.
Variable runtime : Agent → string → World → result AppError string * World.

(** X15: in every dispatch that returns, the agent that was run carries
    the name and the model of the configuration and one tool per enabled
    source, the web-search tool first, then the file-search tool with the
    given maximum and the one vector store; there are as many tools as
    source labels in the metadata. *)
Theorem X15_tools_follow_sources query api_key vs_id web docs max w r w' :
  run_agent config runtime query api_key vs_id web docs max w = (Ok r, w') →
  ∃ agent,
    agent_runs w' = (agent_runs w ++ [(agent, query)])%list ∧
    name agent = AGENT_NAME config ∧
    model agent = AGENT_MODEL config ∧
    tools agent = ((if web then [WebSearchTool] else []) ++
                   (if docs then [FileSearchTool max [vs_id]] else []))%list ∧
    length (tools agent) = length (sources_enabled (metadata r)).
Proof.
  intros Hrun.
  destruct (run_agent_returns _ _ _ _ _ _ _ _ _ _ _ Hrun)
    as (base & mode & agent & _ & _ & _ & _ & Hagent & _ & Hmeta & Hw').
  exists agent. rewrite Hw', Hagent, Hmeta. simpl.
  repeat split. by destruct web, docs.
Qed.



(** *** One submission to the chat *)


(** X19: the conversation is append-only. One submission either leaves
    the history and the process as they are (the handler refused, or the
    prompt was empty), or adds exactly two entries, the prompt of the
    user and then one reply of the assistant; it never removes or rewrites
    an earlier entry. *)
Theorem X19_history_is_append_only prompt api_key vs_id web docs max session w :
  let out := chat_input config runtime prompt api_key vs_id web docs max session w in
  (messages out.1 = messages session ∧ out.2 = w) ∨
  (∃ reply,
     messages out.1 = (messages session ++ [mkEntry user prompt None; reply])%list ∧
     role reply = assistant ∧
     alerts out.1 = alerts session).
Proof.
  cbv zeta. unfold chat_input.
  destruct (String.eqb prompt ""); [by left|].
  destruct (String.eqb api_key ""); [by left|].
  destruct (String.eqb vs_id "" && docs); [by left|].
  destruct (negb web && negb docs); [by left|].
  right.
  destruct (run_agent config runtime prompt api_key vs_id web docs max w)
    as [[r|e] w1]; simpl; eexists; rewrite <- app_assoc; by repeat split.
Qed.

(** X20: the handler refuses, without dispatching and without touching
    the process or the history, when the API key is empty, when document
    search is on without a vector store, or when no source is on; it
    shows one alert, and a missing API key is the one reported whenever
    the key is empty, whatever else is wrong. *)
Theorem X20_handler_refuses prompt api_key vs_id web docs max session w :
  prompt ≠ "" →
  api_key = "" ∨ (docs = true ∧ vs_id = "") ∨ (web = false ∧ docs = false) →
  ∃ alert,
    chat_input config runtime prompt api_key vs_id web docs max session w =
      (mkSession (messages session) (alerts session ++ [alert])%list, w) ∧
    (api_key = "" → alert = AddApiKey) ∧
    (api_key ≠ "" → docs = true → alert = AddVectorStoreId) ∧
    (api_key ≠ "" → docs = false → alert = EnableOneSource).
Proof.
  intros Hprompt%String.eqb_neq Hwrong. unfold chat_input, st_error. rewrite Hprompt.
  destruct (String.eqb api_key "") eqn:Hkey.
  { apply String.eqb_eq in Hkey. exists AddApiKey. by repeat split. }
  apply String.eqb_neq in Hkey.
  destruct Hwrong as [Hk|[[-> ->]|[-> ->]]]; [done| |].
  - exists AddVectorStoreId. by repeat split.
  - rewrite andb_false_r. exists EnableOneSource. by repeat split.
Qed.


End Dispatch.

Lemma X15_tools_follow_sources_witness :
  ∃ agent,
    agent_runs hybrid_run.2 = (agent_runs empty_world ++ [(agent, "hello")])%list ∧
    name agent = AGENT_NAME _get_defaults ∧
    model agent = AGENT_MODEL _get_defaults ∧
    tools agent = ([WebSearchTool] ++ [FileSearchTool 5 ["vs_1"]])%list ∧
    length (tools agent) = length (sources_enabled (metadata hybrid_result)).
Proof.
  apply (X15_tools_follow_sources _get_defaults answering "hello" "sk-test" "vs_1"
           true true 5 empty_world hybrid_result hybrid_run.2).
  reflexivity.
Defined.



Lemma X20_handler_refuses_witness :
  ∃ alert,
    chat_input _get_defaults answering "hello" "" "" true true 3 empty_session
      empty_world =
      (mkSession (messages empty_session) (alerts empty_session ++ [alert])%list,
       empty_world) ∧
    ("" = "" → alert = AddApiKey) ∧
    ("" ≠ "" → true = true → alert = AddVectorStoreId) ∧
    ("" ≠ "" → true = false → alert = EnableOneSource).
Proof.
  apply (X20_handler_refuses _get_defaults answering "hello" "" "" true true 3);
    [discriminate|by left].
Defined.


End AppMore.

